(** * PhotoPortal: the gallery-card verification scenario

    A shallow embedding of
    [jules-scratch/verification/verify_gallery_card_changes.py].

    The script is a straight-line Playwright scenario.  The browser
    automation library and the web application under test are not part of
    the repository, so they are modelled here as a small deterministic
    collaborator: a state (driver, browsers, contexts, pages, files, a
    clock and the log of API calls) and an environment [env] that answers
    every question the script puts to the outside world.  The script itself,
    [run], and the [with] statement around it, [main], are transcribed line
    by line on top of that interface. *)

From Stdlib Require Import ZArith Lia.
From stdpp Require Import base strings list gmap.

Open Scope string_scope.
Open Scope list_scope.
Open Scope Z_scope.

(** ** Values the script handles *)

(** Object handles ([browser], [context], [page]) are indices into the
    tables of the collaborator's state. *)
Definition handle := nat.
Bind Scope nat_scope with handle.

(** The object bound by [with sync_playwright() as playwright]. *)
Inductive playwright := Playwright.

(** The browser engines the library can launch ([playwright.chromium], ...). *)
Inductive engine := Chromium | Firefox | Webkit.

(** How an element is looked up: by accessible label, or by accessible role
    and (optionally) accessible name. *)
Inductive selector :=
| Label (text : string)
| Role (role : string) (name : option string).

(** A locator is lazy: it remembers the page and the query, nothing more. *)
Record locator := Locator { loc_page : handle; loc_by : selector }.

(** What can go wrong in a call.  The script catches nothing and never
    looks at an exception, so failures are told apart by the condition that
    causes them, under the names of the specification's error taxonomy,
    and not by the class the library happens to raise for them (its
    [Error], [TimeoutError] or [TargetClosedError]). *)
Inductive exn :=
| EnvironmentFailure   (* the session cannot be acquired: the driver does not
                          start, or the browser does not start or dies while
                          it is being launched *)
| NavigationFailure    (* the target of [goto] cannot be loaded *)
| ElementNotFound      (* no element matched the locator before the action
                          on it timed out *)
| WaitTimeout          (* an explicit wait ran out of time *)
| ArtifactWriteFailure (* the screenshot cannot be written *)
| TargetClosed.        (* a call on a handle that is closed or was never
                          opened *)

Inductive result (A : Type) :=
| Ok (a : A)
| Raise (e : exn).
Arguments Ok {A} a.
Arguments Raise {A} e.

(** One constructor per API entry point the script uses; keyword arguments
    that the script may leave out are options. *)
Inductive call :=
| Start
| Launch (engine : engine) (headless : option bool)
| NewContext (browser : handle)
| NewPage (context : handle)
| Goto (page : handle) (url : string)
| Fill (target : locator) (value : string)
| Click (target : locator)
| WaitForUrl (page : handle) (url : string) (timeout : option Z)
| WaitForSelector (page : handle) (css : string) (timeout : option Z)
| Screenshot (page : handle) (path : string) (full_page : option bool)
| Close (browser : handle)
| Stop.

(** A logged call together with how it resolved ([None]: it returned). *)
Record event := Event { ev_call : call; ev_error : option exn }.

#[global] Instance engine_eq_dec : EqDecision engine.
Proof. solve_decision. Defined.
#[global] Instance selector_eq_dec : EqDecision selector.
Proof. solve_decision. Defined.
#[global] Instance locator_eq_dec : EqDecision locator.
Proof. solve_decision. Defined.
#[global] Instance exn_eq_dec : EqDecision exn.
Proof. solve_decision. Defined.
#[global] Instance call_eq_dec : EqDecision call.
Proof. solve_decision. Defined.
#[global] Instance event_eq_dec : EqDecision event.
Proof. solve_decision. Defined.

(** ** The collaborator's state *)

Record browser_state := Browser { b_engine : engine; b_headless : bool; b_open : bool }.

Record context_state := Context { c_browser : handle; c_open : bool }.

Record page_state := Page {
  p_context : handle;
  p_open : bool;
  p_location : option string;              (* [None]: the blank page *)
  p_fields : list (selector * string);     (* values typed, latest first *)
  p_pending : option (string * Z)          (* navigation in flight: target, ms *)
}.

(** What a screenshot file holds: which document, and whether the whole
    scrollable page or only the viewport was captured. *)
Record image := Image { img_location : option string; img_full_page : bool }.

Record state := State {
  driver : bool;
  browsers : list browser_state;
  contexts : list context_state;
  pages : list page_state;
  files : gmap string image;
  elapsed : Z;
  trace : list event
}.

(** The outside world: the machine the script runs on and the application
    it drives. *)
Record env := Env {
  e_driver_ok : bool;
  e_launch_ok : bool;
  e_reachable : string → bool;
  e_has : string → selector → bool;
  e_activate : string → selector → list (selector * string) → option (string * Z);
  e_appears : string → string → option Z;
  e_writable : string → bool
}.

(** ** A state-and-exception monad *)

Definition M (A : Type) : Type := state → result A * state.

#[global] Instance M_ret : MRet M := λ A a s, (Ok a, s).

#[global] Instance M_bind : MBind M := λ A B k m s,
  match m s with
  | (Ok a, s') => k a s'
  | (Raise e, s') => (Raise e, s')
  end.

Definition raise {A} (e : exn) : M A := λ s, (Raise e, s).
Definition get : M state := λ s, (Ok s, s).
Definition modify (f : state → state) : M unit := λ s, (Ok tt, f s).

Definition error_of {A} (r : result A) : option exn :=
  match r with Ok _ => None | Raise e => Some e end.

Definition log (c : call) (o : option exn) (s : state) : state :=
  State (driver s) (browsers s) (contexts s) (pages s) (files s) (elapsed s)
        (trace s ++ [Event c o]).

(** Every API entry point is logged with its outcome once it resolves. *)
Definition api {A} (c : call) (body : M A) : M A := λ s,
  let '(r, s') := body s in (r, log c (error_of r) s').

Definition set_driver (b : bool) (s : state) : state :=
  State b (browsers s) (contexts s) (pages s) (files s) (elapsed s) (trace s).
Definition set_browsers (l : list browser_state) (s : state) : state :=
  State (driver s) l (contexts s) (pages s) (files s) (elapsed s) (trace s).
Definition set_contexts (l : list context_state) (s : state) : state :=
  State (driver s) (browsers s) l (pages s) (files s) (elapsed s) (trace s).
Definition set_pages (l : list page_state) (s : state) : state :=
  State (driver s) (browsers s) (contexts s) l (files s) (elapsed s) (trace s).
Definition set_files (m : gmap string image) (s : state) : state :=
  State (driver s) (browsers s) (contexts s) (pages s) m (elapsed s) (trace s).
Definition tick (ms : Z) (s : state) : state :=
  State (driver s) (browsers s) (contexts s) (pages s) (files s) (elapsed s + ms)
        (trace s).

(** The live page behind a handle; a closed or unknown handle raises. *)
Definition live_page (p : handle) : M page_state :=
  s ← get;
  match pages s !! p with
  | Some ps => if p_open ps then mret ps else raise TargetClosed
  | None => raise TargetClosed
  end.

Definition put_page (p : handle) (ps : page_state) : M unit :=
  modify (λ s, set_pages (<[p := ps]> (pages s)) s).

(** ** The collaborator's API *)

(** Defaults the library applies when a keyword argument is left out. *)
Definition default_headless : bool := true.
Definition default_timeout : Z := 30000.
Definition default_full_page : bool := false.

Definition effective_timeout (timeout : option Z) : Z :=
  default default_timeout timeout.

Section Collaborator.
Variable E : env.

(** [sync_playwright().__enter__()] *)
Definition start : M playwright :=
  api Start
    (if e_driver_ok E
     then modify (set_driver true);; mret Playwright
     else raise EnvironmentFailure).

(** [playwright.<engine>.launch(headless=...)].  A launch that does not
    give a browser is the environment failure, whichever way it fails: the
    executable is missing, the start times out, or the browser dies while
    starting. *)
Definition launch (_ : playwright) (engine : engine) (headless : option bool)
  : M handle :=
  api (Launch engine headless)
    (s ← get;
     if driver s && e_launch_ok E
     then modify (set_browsers
                    (browsers s ++ [Browser engine (default default_headless headless) true]));;
          mret (length (browsers s))
     else raise EnvironmentFailure).

(** [browser.new_context()]: a fresh, isolated context of an open browser. *)
Definition new_context (browser : handle) : M handle :=
  api (NewContext browser)
    (s ← get;
     match browsers s !! browser with
     | Some b =>
         if b_open b
         then modify (set_contexts (contexts s ++ [Context browser true]));;
              mret (length (contexts s))
         else raise TargetClosed
     | None => raise TargetClosed
     end).

(** [context.new_page()]: a blank page of an open context. *)
Definition new_page (context : handle) : M handle :=
  api (NewPage context)
    (s ← get;
     match contexts s !! context with
     | Some c =>
         if c_open c
         then modify (set_pages (pages s ++ [Page context true None [] None]));;
              mret (length (pages s))
         else raise TargetClosed
     | None => raise TargetClosed
     end).

(** [page.goto(url)] *)
Definition goto (page : handle) (url : string) : M unit :=
  api (Goto page url)
    (ps ← live_page page;
     if e_reachable E url
     then put_page page (Page (p_context ps) true (Some url) [] None)
     else raise NavigationFailure).

(** [page.get_by_label(text)] and [page.get_by_role(role, name=...)] only
    build a locator; nothing is looked up yet and nothing is logged. *)
Definition get_by_label (page : handle) (text : string) : locator :=
  Locator page (Label text).
Definition get_by_role (page : handle) (role : string) (name : option string)
  : locator :=
  Locator page (Role role name).

(** Whether the document the page shows has an element for the query. *)
Definition present (ps : page_state) (q : selector) : bool :=
  match p_location ps with
  | Some u => e_has E u q
  | None => false
  end.

(** Whether the page shows exactly the document at [url]. *)
Definition at_url (ps : page_state) (url : string) : bool :=
  match p_location ps with
  | Some u => String.eqb u url
  | None => false
  end.

(** After how many milliseconds the document the page shows has a first
    element matching the CSS selector, if it ever has one. *)
Definition first_match (ps : page_state) (css : string) : option Z :=
  match p_location ps with
  | Some u => e_appears E u css
  | None => None
  end.

(** [locator.fill(value)]: the action waits for the element; when none
    matches it gives up only after the default timeout. *)
Definition fill (target : locator) (value : string) : M unit :=
  api (Fill target value)
    (ps ← live_page (loc_page target);
     if present ps (loc_by target)
     then put_page (loc_page target)
            (Page (p_context ps) true (p_location ps)
                  ((loc_by target, value) :: p_fields ps) (p_pending ps))
     else modify (tick default_timeout);; raise ElementNotFound).

(** [locator.click()]: the action waits for the element like [fill];
    activating an element may start a navigation. *)
Definition click (target : locator) : M unit :=
  api (Click target)
    (ps ← live_page (loc_page target);
     if present ps (loc_by target)
     then put_page (loc_page target)
            (Page (p_context ps) true (p_location ps) (p_fields ps)
                  (match p_location ps with
                   | Some u => e_activate E u (loc_by target) (p_fields ps)
                   | None => None
                   end))
     else modify (tick default_timeout);; raise ElementNotFound).

(** [page.wait_for_url(url, timeout=...)]: returns at once when the page
    is already there, otherwise blocks on the navigation in flight for at
    most the timeout. *)
Definition wait_for_url (page : handle) (url : string) (timeout : option Z)
  : M unit :=
  api (WaitForUrl page url timeout)
    (ps ← live_page page;
     let bound := effective_timeout timeout in
     if at_url ps url then mret tt
     else match p_pending ps with
          | Some (target, ms) =>
              if String.eqb target url && (ms <=? bound)
              then modify (tick ms);;
                   put_page page (Page (p_context ps) true (Some url) [] None)
              else modify (tick bound);; raise WaitTimeout
          | None => modify (tick bound);; raise WaitTimeout
          end).

(** [page.wait_for_selector(css, timeout=...)]: blocks until a first
    matching element shows up, for at most the timeout. *)
Definition wait_for_selector (page : handle) (css : string) (timeout : option Z)
  : M unit :=
  api (WaitForSelector page css timeout)
    (ps ← live_page page;
     let bound := effective_timeout timeout in
     match first_match ps css with
     | Some ms =>
         if ms <=? bound
         then modify (tick ms)
         else modify (tick bound);; raise WaitTimeout
     | None => modify (tick bound);; raise WaitTimeout
     end).

(** [page.screenshot(path=..., full_page=...)]: the file at [path] is
    replaced by the new capture. *)
Definition screenshot (page : handle) (path : string) (full_page : option bool)
  : M unit :=
  api (Screenshot page path full_page)
    (ps ← live_page page;
     if e_writable E path
     then modify (λ s,
            set_files
              (<[path := Image (p_location ps) (default default_full_page full_page)]>
                 (files s)) s)
     else raise ArtifactWriteFailure).

Definition close_page_of (closed : handle → bool) (ps : page_state) : page_state :=
  if closed (p_context ps)
  then Page (p_context ps) false (p_location ps) (p_fields ps) (p_pending ps)
  else ps.

Definition close_context_of (browser : handle) (c : context_state) : context_state :=
  if Nat.eqb (c_browser c) browser then Context (c_browser c) false else c.

Definition context_closed (l : list context_state) (c : handle) : bool :=
  match l !! c with
  | Some cs => negb (c_open cs)
  | None => true
  end.

(** [browser.close()]: closes the browser with its contexts and pages. *)
Definition close (browser : handle) : M unit :=
  api (Close browser)
    (s ← get;
     match browsers s !! browser with
     | Some b =>
         let cs := close_context_of browser <$> contexts s in
         modify (set_browsers
                   (<[browser := Browser (b_engine b) (b_headless b) false]> (browsers s)));;
         modify (set_contexts cs);;
         modify (set_pages (close_page_of (context_closed cs) <$> pages s))
     | None => raise TargetClosed
     end).

(** [sync_playwright().__exit__(exc_type, exc, tb)]: stops the driver,
    which takes every browser it launched down with it.  It returns
    [None], so a pending exception is not swallowed. *)
Definition stop (_ : playwright) (pending : option exn) : M bool :=
  api Stop
    (s ← get;
     modify (set_driver false);;
     modify (set_browsers ((λ b, Browser (b_engine b) (b_headless b) false) <$> browsers s));;
     modify (set_contexts ((λ c, Context (c_browser c) false) <$> contexts s));;
     modify (set_pages (close_page_of (λ _, true) <$> pages s));;
     mret false).

(** ** The script *)

Definition login_url : string := "http://localhost:3000/login".
Definition dashboard_url : string := "http://localhost:3000/dashboard".
Definition artifact_path : string := "jules-scratch/verification/verification.png".

(** [def run(playwright): ...] *)
Definition run (playwright : playwright) : M unit :=
  browser ← launch playwright Chromium (Some true);
  context ← new_context browser;
  page ← new_page context;
  goto page "http://localhost:3000/login";;
  fill (get_by_label page "Email") "photographer@yarrow.com";;
  fill (get_by_label page "Password") "yarrow";;
  click (get_by_role page "button" (Some "Login"));;
  wait_for_url page "http://localhost:3000/dashboard" None;;
  wait_for_selector page ".card" (Some 10000);;
  screenshot page "jules-scratch/verification/verification.png" None;;
  close browser.

(** [with cm as x: body] for the context manager [sync_playwright()]:
    [__exit__] runs whether the body returned or raised, and the
    exception is raised again unless [__exit__] returned a true value. *)
Definition with_sync_playwright {A} (body : playwright → M A) : M unit := λ s,
  match start s with
  | (Raise e, s1) => (Raise e, s1)
  | (Ok pw, s1) =>
      match body pw s1 with
      | (Ok _, s2) =>
          match stop pw None s2 with
          | (Ok _, s3) => (Ok tt, s3)
          | (Raise e', s3) => (Raise e', s3)
          end
      | (Raise e, s2) =>
          match stop pw (Some e) s2 with
          | (Ok swallow, s3) => (if swallow then Ok tt else Raise e, s3)
          | (Raise e', s3) => (Raise e', s3)
          end
      end
  end.

(** The module body: [with sync_playwright() as playwright: run(playwright)]. *)
Definition main : M unit := with_sync_playwright run.

End Collaborator.

(** The state a fresh process starts from: nothing is running, and the disk
    holds whatever earlier runs left there. *)
Definition init (disk : gmap string image) : state :=
  State false [] [] [] disk 0 [].

(** The exit status of the interpreter: 0 when the module body returns, 1
    when an exception reaches the top level. *)
Definition exit_status {A} (r : result A) : Z :=
  match r with Ok _ => 0 | Raise _ => 1 end.

(** ** Observing a run *)

(** What the process does on a given machine and application, with a given
    disk: how the module body ends, the state it leaves, and the log. *)
Definition outcome (E : env) (disk : gmap string image) : result unit :=
  fst (main E (init disk)).
Definition final (E : env) (disk : gmap string image) : state :=
  snd (main E (init disk)).
Definition history (E : env) (disk : gmap string image) : list event :=
  trace (final E disk).

(** The first call of a log that raised, with its exception. *)
Fixpoint first_failure (t : list event) : option (call * exn) :=
  match t with
  | [] => None
  | Event c (Some e) :: _ => Some (c, e)
  | Event _ None :: t' => first_failure t'
  end.

(** The step of the scenario a call belongs to: 1 acquire the session,
    2 open the page, 3 fill the identity fields, 4 submit, 5 await the
    navigation, 6 await the content, 7 capture, 8 release. *)
Definition step_of (c : call) : nat :=
  match c with
  | Start | Launch _ _ | NewContext _ | NewPage _ => 1
  | Goto _ _ => 2
  | Fill _ _ => 3
  | Click _ => 4
  | WaitForUrl _ _ _ => 5
  | WaitForSelector _ _ _ => 6
  | Screenshot _ _ _ => 7
  | Close _ | Stop => 8
  end.

(** The calls of [run], top to bottom, on the handles a fresh process gets. *)
Definition script : list call :=
  [ Launch Chromium (Some true);
    NewContext 0;
    NewPage 0;
    Goto 0 "http://localhost:3000/login";
    Fill (Locator 0 (Label "Email")) "photographer@yarrow.com";
    Fill (Locator 0 (Label "Password")) "yarrow";
    Click (Locator 0 (Role "button" (Some "Login")));
    WaitForUrl 0 "http://localhost:3000/dashboard" None;
    WaitForSelector 0 ".card" (Some 10000);
    Screenshot 0 "jules-scratch/verification/verification.png" None;
    Close 0 ].

(** A call that returned, as a log entry. *)
Definition returned (c : call) : event := Event c None.

(** Calls that operate on a page, and the page they operate on. *)
Definition page_of (c : call) : option handle :=
  match c with
  | Goto p _ | WaitForUrl p _ _ | WaitForSelector p _ _ | Screenshot p _ _ => Some p
  | Fill l _ | Click l => Some (loc_page l)
  | _ => None
  end.

(** Nothing of the browsing environment is left running. *)
Definition released (s : state) : Prop :=
  driver s = false ∧
  Forall (λ b, b_open b = false) (browsers s) ∧
  Forall (λ c, c_open c = false) (contexts s) ∧
  Forall (λ p, p_open p = false) (pages s).

(** A machine and an application on which everything goes well: the login
    form is complete, submitting it leads to the dashboard after 400 ms and
    the first gallery card shows up 250 ms later. *)
Definition healthy : env :=
  Env true true (λ _, true) (λ _ _, true)
      (λ _ _ _, Some ("http://localhost:3000/dashboard", 400))
      (λ _ _, Some 250) (λ _, true).

(** ** Vocabulary of the statements, and some environments *)

(** The calls of the whole process while the scope is open. *)
Definition program : list call := Start :: script.

(** The log of a run whose [n]-th call raised [e]: the calls before it
    returned, the scope was left, and nothing else happened. *)
Definition aborted_log (n : nat) (e : exn) : list event :=
  match drop n program with
  | c :: _ => (returned <$> take n program) ++ [Event c (Some e); returned Stop]
  | [] => []
  end.

(** The log of a run in which every call returned. *)
Definition full_log : list event := returned <$> (program ++ [Stop]).

(** The state once the scope is left: a browser, a context and a page were
    created and are all closed. *)
Definition wound_up (page : page_state) (disk : gmap string image) (ms : Z)
    (t : list event) : state :=
  State false [Browser Chromium true false] [Context 0 false] [page] disk ms t.

Definition typed_email : list (selector * string) :=
  [(Label "Email", "photographer@yarrow.com")].
Definition typed_both : list (selector * string) :=
  (Label "Password", "yarrow") :: typed_email.

(** What submitting the filled login form sets off. *)
Definition submitted (E : env) : option (string * Z) :=
  e_activate E login_url (Role "button" (Some "Login")) typed_both.

(** A site that cannot be reached, and a run against it. *)
Definition offline : env :=
  Env true true (λ _, false) (λ _ _, true)
      (λ _ _ _, Some ("http://localhost:3000/dashboard", 400))
      (λ _ _, Some 250) (λ _, true).

(** The run failed, and the first call that raised belongs to step [n]. *)
Definition failed_at_step (E : env) (disk : gmap string image) (n : nat) : Prop :=
  ∃ (c : call) (e : exn),
    first_failure (history E disk) = Some (c, e) ∧ step_of c = n.

(** A disk on which an earlier run left a (different) artifact. *)
Definition stale_disk : gmap string image :=
  {[ "jules-scratch/verification/verification.png" := Image None true;
     "notes.txt" := Image None false ]}.

(** A dashboard on which no gallery card ever shows up. *)
Definition no_cards : env :=
  Env true true (λ _, true) (λ _ _, true)
      (λ _ _ _, Some ("http://localhost:3000/dashboard", 400))
      (λ _ _, None) (λ _, true).

Definition has_email (E : env) : bool := e_has E login_url (Label "Email").
Definition has_password (E : env) : bool := e_has E login_url (Label "Password").
Definition has_login_button (E : env) : bool :=
  e_has E login_url (Role "button" (Some "Login")).

(** How a lookup resolves, given whether the element is there. *)
Definition lookup_result (found : bool) : option exn :=
  if found then None else Some ElementNotFound.

Definition fill_email : call :=
  Fill (Locator 0 (Label "Email")) "photographer@yarrow.com".
Definition fill_password : call :=
  Fill (Locator 0 (Label "Password")) "yarrow".
Definition click_login : call :=
  Click (Locator 0 (Role "button" (Some "Login"))).

Definition wait_for_card : call := WaitForSelector 0 ".card" (Some 10000).
Definition wait_for_dashboard : call := WaitForUrl 0 dashboard_url None.

(** Whether a first gallery card shows up on the dashboard within ten
    seconds. *)
Definition card_in_time (E : env) : bool :=
  match e_appears E dashboard_url ".card" with
  | Some ms => ms <=? 10000
  | None => false
  end.

(** A machine on which the artifact cannot be written. *)
Definition read_only : env :=
  Env true true (λ _, true) (λ _ _, true)
      (λ _ _ _, Some ("http://localhost:3000/dashboard", 400))
      (λ _ _, Some 250) (λ _, false).

(** An application that sends the browser somewhere else after login. *)
Definition detour : env :=
  Env true true (λ _, true) (λ _ _, true)
      (λ _ _ _, Some ("http://localhost:3000/dashboard/", 400))
      (λ _ _, Some 250) (λ _, true).

Definition creates_page (c : call) : bool :=
  match c with NewPage _ => true | _ => false end.

(** Calls that create or operate on a page. *)
Definition touches_page (c : call) : bool :=
  creates_page c || bool_decide (is_Some (page_of c)).

(** The address the application is served at. *)
Definition base_url : string := "http://localhost:3000".

(** ** What a run depends on *)

(** Whether submitting the login form leads to the dashboard within the
    default bound of the navigation wait. *)
Definition navigates_in_time (E : env) : bool :=
  match submitted E with
  | Some (target, ms) => String.eqb target dashboard_url && (ms <=? default_timeout)
  | None => false
  end.

(** Every answer the script needs is favourable. *)
Definition passes (E : env) : bool :=
  e_driver_ok E && e_launch_ok E && e_reachable E login_url &&
  has_email E && has_password E && has_login_button E &&
  navigates_in_time E && card_in_time E && e_writable E artifact_path.

(** Two environments give the same answers to the nine questions the
    script asks; they may differ on every other URL, element, selector and
    path. *)
Definition same_answers (E E' : env) : Prop :=
  e_driver_ok E = e_driver_ok E' ∧
  e_launch_ok E = e_launch_ok E' ∧
  e_reachable E login_url = e_reachable E' login_url ∧
  has_email E = has_email E' ∧
  has_password E = has_password E' ∧
  has_login_button E = has_login_button E' ∧
  submitted E = submitted E' ∧
  e_appears E dashboard_url ".card" = e_appears E' dashboard_url ".card" ∧
  e_writable E artifact_path = e_writable E' artifact_path.

(** An environment that differs from [healthy] wherever the script does
    not look: other pages are unreachable and empty, other files cannot be
    written. *)
Definition healthy_elsewhere_broken : env :=
  Env true true
      (λ url, String.eqb url "http://localhost:3000/login")
      (λ url _, String.eqb url "http://localhost:3000/login")
      (λ url _ _,
         if String.eqb url "http://localhost:3000/login"
         then Some ("http://localhost:3000/dashboard", 400) else None)
      (λ url css,
         if String.eqb url "http://localhost:3000/dashboard" && String.eqb css ".card"
         then Some 250 else None)
      (λ path, String.eqb path "jules-scratch/verification/verification.png").


(** ** [run] as a function of the state it is called in *)

(** The calls of [run] when [launch], [new_context] and [new_page] hand it
    the handles [b], [c] and [p]. *)
Definition script_on (b c p : handle) : list call :=
  [ Launch Chromium (Some true);
    NewContext b;
    NewPage c;
    Goto p "http://localhost:3000/login";
    Fill (Locator p (Label "Email")) "photographer@yarrow.com";
    Fill (Locator p (Label "Password")) "yarrow";
    Click (Locator p (Role "button" (Some "Login")));
    WaitForUrl p "http://localhost:3000/dashboard" None;
    WaitForSelector p ".card" (Some 10000);
    Screenshot p "jules-scratch/verification/verification.png" None;
    Close b ].

(** The page [p'] shows what [p] showed: same context, document, typed
    values and navigation in flight; only the open flag may differ. *)
Definition same_document (p p' : page_state) : Prop :=
  p_context p' = p_context p ∧ p_location p' = p_location p ∧
  p_fields p' = p_fields p ∧ p_pending p' = p_pending p.

(** A driver that already runs a Firefox with a page of its own. *)
Definition busy : state :=
  State true [Browser Firefox false true] [Context 0 true]
        [Page 0 true (Some "http://example.org/") [(Label "Search", "cats")] None]
        stale_disk 0 [returned Start].

(** ** Symbolic execution of the script *)

Ltac exec :=
  cbv [outcome final history main with_sync_playwright run start launch
       new_context new_page goto fill click wait_for_url wait_for_selector
       screenshot close stop api live_page put_page mbind M_bind mret M_ret
       get modify raise log error_of set_driver set_browsers set_contexts
       set_pages set_files tick init present at_url first_match get_by_label
       get_by_role effective_timeout default_timeout default_headless
       default_full_page default close_page_of close_context_of
       context_closed];
  cbn.

Ltac on_goal t tac :=
  lazymatch goal with
  | |- context [t] => tac
  | _ => idtac
  end.

(** Splits on every answer of the environment the script depends on, in
    the order in which the script asks. *)
Ltac run_cases E :=
  exec;
  on_goal (e_driver_ok E) ltac:(destruct (e_driver_ok E) eqn:Hdriver; exec);
  on_goal (e_launch_ok E) ltac:(destruct (e_launch_ok E) eqn:Hlaunch; exec);
  on_goal (e_reachable E) ltac:(
    destruct (e_reachable E "http://localhost:3000/login") eqn:Hreach; exec);
  on_goal (e_has E) ltac:(
    destruct (e_has E "http://localhost:3000/login" (Label "Email")) eqn:Hemail; exec);
  on_goal (e_has E) ltac:(
    destruct (e_has E "http://localhost:3000/login" (Label "Password")) eqn:Hpassword;
    exec);
  on_goal (e_has E) ltac:(
    destruct (e_has E "http://localhost:3000/login" (Role "button" (Some "Login")))
      eqn:Hlogin; exec);
  on_goal (e_activate E) ltac:(
    destruct (e_activate E "http://localhost:3000/login" (Role "button" (Some "Login"))
                [(Label "Password", "yarrow"); (Label "Email", "photographer@yarrow.com")])
      as [[target ms]|] eqn:Hsubmit; exec);
  try match goal with
      | |- context [String.eqb ?x "http://localhost:3000/dashboard"] =>
          destruct (String.eqb_spec x "http://localhost:3000/dashboard")
            as [Htarget|Htarget]; [subst x|]; exec
      end;
  try match goal with
      | |- context [?m <=? 30000] =>
          destruct (Z.leb_spec m 30000) as [Hms|Hms]; exec
      end;
  on_goal (e_appears E) ltac:(
    destruct (e_appears E "http://localhost:3000/dashboard" ".card") as [t|] eqn:Hcard;
    exec);
  try match goal with
      | |- context [?m <=? 10000] =>
          destruct (Z.leb_spec m 10000) as [Ht|Ht]; exec
      end;
  on_goal (e_writable E) ltac:(
    destruct (e_writable E "jules-scratch/verification/verification.png") eqn:Hwrite;
    exec).

(** ** The thirteen ways a run can go *)

Inductive run_of (E : env) (disk : gmap string image) : result unit → state → Prop :=
| no_driver :
    e_driver_ok E = false →
    run_of E disk (Raise EnvironmentFailure)
      (State false [] [] [] disk 0 [Event Start (Some EnvironmentFailure)])
| no_browser :
    e_driver_ok E = true → e_launch_ok E = false →
    run_of E disk (Raise EnvironmentFailure)
      (State false [] [] [] disk 0 (aborted_log 1 EnvironmentFailure))
| no_site :
    e_driver_ok E = true → e_launch_ok E = true →
    e_reachable E login_url = false →
    run_of E disk (Raise NavigationFailure)
      (wound_up (Page 0 false None [] None) disk 0
         (aborted_log 4 NavigationFailure))
| no_email :
    e_driver_ok E = true → e_launch_ok E = true →
    e_reachable E login_url = true →
    e_has E login_url (Label "Email") = false →
    run_of E disk (Raise ElementNotFound)
      (wound_up (Page 0 false (Some login_url) [] None) disk (0 + 30000)
         (aborted_log 5 ElementNotFound))
| no_password :
    e_driver_ok E = true → e_launch_ok E = true →
    e_reachable E login_url = true →
    e_has E login_url (Label "Email") = true →
    e_has E login_url (Label "Password") = false →
    run_of E disk (Raise ElementNotFound)
      (wound_up (Page 0 false (Some login_url) typed_email None) disk (0 + 30000)
         (aborted_log 6 ElementNotFound))
| no_button :
    e_driver_ok E = true → e_launch_ok E = true →
    e_reachable E login_url = true →
    e_has E login_url (Label "Email") = true →
    e_has E login_url (Label "Password") = true →
    e_has E login_url (Role "button" (Some "Login")) = false →
    run_of E disk (Raise ElementNotFound)
      (wound_up (Page 0 false (Some login_url) typed_both None) disk (0 + 30000)
         (aborted_log 7 ElementNotFound))
| no_navigation :
    e_driver_ok E = true → e_launch_ok E = true →
    e_reachable E login_url = true →
    e_has E login_url (Label "Email") = true →
    e_has E login_url (Label "Password") = true →
    e_has E login_url (Role "button" (Some "Login")) = true →
    submitted E = None →
    run_of E disk (Raise WaitTimeout)
      (wound_up (Page 0 false (Some login_url) typed_both None) disk (0 + 30000)
         (aborted_log 8 WaitTimeout))
| other_page target ms :
    e_driver_ok E = true → e_launch_ok E = true →
    e_reachable E login_url = true →
    e_has E login_url (Label "Email") = true →
    e_has E login_url (Label "Password") = true →
    e_has E login_url (Role "button" (Some "Login")) = true →
    submitted E = Some (target, ms) →
    target ≠ dashboard_url →
    run_of E disk (Raise WaitTimeout)
      (wound_up (Page 0 false (Some login_url) typed_both (Some (target, ms))) disk
         (0 + 30000) (aborted_log 8 WaitTimeout))
| slow_navigation ms :
    e_driver_ok E = true → e_launch_ok E = true →
    e_reachable E login_url = true →
    e_has E login_url (Label "Email") = true →
    e_has E login_url (Label "Password") = true →
    e_has E login_url (Role "button" (Some "Login")) = true →
    submitted E = Some (dashboard_url, ms) →
    30000 < ms →
    run_of E disk (Raise WaitTimeout)
      (wound_up (Page 0 false (Some login_url) typed_both (Some (dashboard_url, ms)))
         disk (0 + 30000) (aborted_log 8 WaitTimeout))
| no_card ms :
    e_driver_ok E = true → e_launch_ok E = true →
    e_reachable E login_url = true →
    e_has E login_url (Label "Email") = true →
    e_has E login_url (Label "Password") = true →
    e_has E login_url (Role "button" (Some "Login")) = true →
    submitted E = Some (dashboard_url, ms) →
    ms ≤ 30000 →
    e_appears E dashboard_url ".card" = None →
    run_of E disk (Raise WaitTimeout)
      (wound_up (Page 0 false (Some dashboard_url) [] None) disk (0 + ms + 10000)
         (aborted_log 9 WaitTimeout))
| late_card ms t :
    e_driver_ok E = true → e_launch_ok E = true →
    e_reachable E login_url = true →
    e_has E login_url (Label "Email") = true →
    e_has E login_url (Label "Password") = true →
    e_has E login_url (Role "button" (Some "Login")) = true →
    submitted E = Some (dashboard_url, ms) →
    ms ≤ 30000 →
    e_appears E dashboard_url ".card" = Some t →
    10000 < t →
    run_of E disk (Raise WaitTimeout)
      (wound_up (Page 0 false (Some dashboard_url) [] None) disk (0 + ms + 10000)
         (aborted_log 9 WaitTimeout))
| no_write ms t :
    e_driver_ok E = true → e_launch_ok E = true →
    e_reachable E login_url = true →
    e_has E login_url (Label "Email") = true →
    e_has E login_url (Label "Password") = true →
    e_has E login_url (Role "button" (Some "Login")) = true →
    submitted E = Some (dashboard_url, ms) →
    ms ≤ 30000 →
    e_appears E dashboard_url ".card" = Some t →
    t ≤ 10000 →
    e_writable E artifact_path = false →
    run_of E disk (Raise ArtifactWriteFailure)
      (wound_up (Page 0 false (Some dashboard_url) [] None) disk (0 + ms + t)
         (aborted_log 10 ArtifactWriteFailure))
| all_good ms t :
    e_driver_ok E = true → e_launch_ok E = true →
    e_reachable E login_url = true →
    e_has E login_url (Label "Email") = true →
    e_has E login_url (Label "Password") = true →
    e_has E login_url (Role "button" (Some "Login")) = true →
    submitted E = Some (dashboard_url, ms) →
    ms ≤ 30000 →
    e_appears E dashboard_url ".card" = Some t →
    t ≤ 10000 →
    e_writable E artifact_path = true →
    run_of E disk (Ok tt)
      (wound_up (Page 0 false (Some dashboard_url) [] None)
         (<[artifact_path := Image (Some dashboard_url) false]> disk) (0 + ms + t)
         full_log).

(** Every run is one of the thirteen. *)
Lemma run_cases_exhaustive (E : env) (disk : gmap string image) :
  run_of E disk (outcome E disk) (final E disk).
Proof.
  run_cases E;
    [ eapply all_good | eapply no_write | eapply late_card | eapply no_card
    | eapply slow_navigation | eapply other_page | eapply no_navigation
    | eapply no_button | eapply no_password | eapply no_email | eapply no_site
    | eapply no_browser | eapply no_driver ];
    eauto.
Qed.

(** Case analysis on how the run of [E] on [disk] went. *)
Ltac by_run E disk :=
  unfold history;
  generalize (run_cases_exhaustive E disk);
  generalize (outcome E disk) (final E disk);
  let r := fresh "r" in
  let s := fresh "s" in
  let Hrun := fresh "Hrun" in
  intros r s Hrun; destruct Hrun.

(** ** Reading a concrete log *)

(** Enumerates the positions of a log that is known entry by entry. *)
Ltac each_position H :=
  cbn in H;
  repeat match type of H with
         | None = Some _ => discriminate H
         | _ !! ?i = Some _ => destruct i as [|i]; cbn in H
         end;
  try match type of H with
      | Some _ = Some _ => injection H as <-
      end.

(** Goals of the form [∀ ev, ev ∈ log → P ev] on such a log: one goal per
    entry, closed by [tac] where it can. *)
Ltac each_event tac :=
  match goal with
  | |- ∀ ev, ev ∈ ?l → @?P ev => apply (proj1 (Forall_forall P l))
  end;
  repeat (constructor; [cbn; try tac|]); try constructor.

(** Closed facts about membership in such a log are decided. *)
Ltac in_log := apply (bool_decide_unpack _); vm_compute; exact I.
Ltac not_in_log H :=
  exfalso; revert H;
  match goal with
  | |- ?P → False => change (¬ P)
  end;
  apply (bool_decide_unpack _); vm_compute; exact I.

(** ** The scope around the script *)

Lemma stop_releases (pending : option exn) (s : state) :
  released (snd (stop Playwright pending s)).
Proof.
  unfold released; cbn; repeat split.
  - apply Forall_fmap, Forall_true; done.
  - apply Forall_fmap, Forall_true; done.
  - apply Forall_fmap, Forall_true. intros []; done.
Qed.

Lemma stop_logged_last (pending : option exn) (s : state) :
  trace (snd (stop Playwright pending s)) = trace s ++ [returned Stop].
Proof. reflexivity. Qed.

Lemma stop_returns_false (pending : option exn) (s : state) :
  stop Playwright pending s = (Ok false, snd (stop Playwright pending s)).
Proof. reflexivity. Qed.

Lemma start_enters (E : env) (s : state) :
  e_driver_ok E = true →
  start E s = (Ok Playwright, log Start None (set_driver true s)).
Proof. intros Hdriver. unfold start, api. rewrite Hdriver. reflexivity. Qed.

(** Whatever the body does, once the scope is entered it is left again:
    the exit is the last call of the process, it leaves nothing running,
    and it hands the body's exception on unchanged. *)
Lemma scope_is_left (E : env) {A} (body : playwright → M A) (s : state) :
  e_driver_ok E = true →
  last (trace (snd (with_sync_playwright E body s))) = Some (returned Stop) ∧
  released (snd (with_sync_playwright E body s)) ∧
  error_of (fst (with_sync_playwright E body s))
  = error_of (fst (body Playwright (snd (start E s)))).
Proof.
  intros Hdriver. unfold with_sync_playwright.
  rewrite (start_enters E s Hdriver). cbn [snd].
  destruct (body Playwright _) as [[a|e] s2];
    rewrite stop_returns_false; cbv beta iota; cbn [fst snd];
    (split; [rewrite stop_logged_last; apply last_snoc|]);
    (split; [apply stop_releases | reflexivity]).
Qed.

(** ** C1: the order of the steps *)

(** C1.  The calls of [run] follow the program text: whatever the
    environment, the log of the run is a prefix of the eleven calls
    launch, new context, new page, goto, fill Email, fill Password, click
    Login, wait for the URL, wait for a card, screenshot, close; every call
    but the last one logged has returned before the next was made; and
    the run returns exactly when all eleven calls were made and returned,
    none skipped. *)
Theorem steps_in_program_order (E : env) (disk : gmap string image) :
  e_driver_ok E = true →
  ∃ evs : list event,
    history E disk = returned Start :: evs ++ [returned Stop] ∧
    (ev_call <$> evs) `prefix_of` script ∧
    Forall (λ ev, ev_error ev = None) (removelast evs) ∧
    last evs ≫= ev_error = error_of (outcome E disk) ∧
    (outcome E disk = Ok tt ↔ evs = returned <$> script).
Proof.
  by_run E disk; intros Hd; try congruence;
    match goal with
    | |- ∃ evs, trace ?s = _ ∧ _ =>
        let t := eval vm_compute in (removelast (tail (trace s))) in exists t
    end;
    (split; [reflexivity|]);
    (split; [eexists; reflexivity|]);
    (split; [cbn; repeat constructor|]);
    (split; [reflexivity|]);
    split; intros; done.
Qed.

Lemma steps_in_program_order_witness :
  ∃ evs : list event,
    history healthy ∅ = returned Start :: evs ++ [returned Stop] ∧
    (ev_call <$> evs) `prefix_of` script ∧
    Forall (λ ev, ev_error ev = None) (removelast evs) ∧
    last evs ≫= ev_error = error_of (outcome healthy ∅) ∧
    (outcome healthy ∅ = Ok tt ↔ evs = returned <$> script).
Proof. apply (steps_in_program_order healthy ∅). reflexivity. Defined.

(** ** C2: the session is released on every path *)

(** The explicit [browser.close()] is the last statement of [run]: it is
    reached exactly when everything before it returned.  On the other paths
    the release is the work of the scope exit alone. *)
Lemma explicit_close_only_on_success (E : env) (disk : gmap string image) :
  (∃ o, Event (Close 0) o ∈ history E disk) ↔ outcome E disk = Ok tt.
Proof.
  by_run E disk; cbn;
    (split; [intros [[e|] Hin]; first [done | not_in_log Hin] | try done]).
  intros _. exists None. in_log.
Qed.

(** C2.  When a call of steps 2 to 7 raises (navigation, element lookup,
    either wait, the capture), and likewise when the run succeeds, the last
    thing the process does is leave the [sync_playwright] scope, and after
    that no driver, browser, context or page is left open. *)
Theorem session_released_on_every_path (E : env) (disk : gmap string image) :
  (outcome E disk = Ok tt ∨ ∃ n, (2 ≤ n ≤ 7)%nat ∧ failed_at_step E disk n) →
  last (history E disk) = Some (returned Stop) ∧ released (final E disk).
Proof.
  intros Hpath.
  assert (Hdriver : e_driver_ok E = true).
  { revert Hpath. unfold failed_at_step.
    by_run E disk; try done.
    intros [?|(n & Hn & c & e & Hfirst & Hstep)]; simplify_eq/=. lia. }
  unfold history, final, main.
  pose proof (scope_is_left E (run E) (init disk) Hdriver) as (Hlast & Hrel & _).
  done.
Qed.

Lemma session_released_on_every_path_witness :
  last (history offline ∅) = Some (returned Stop) ∧ released (final offline ∅).
Proof.
  apply (session_released_on_every_path offline ∅).
  right. exists 2%nat. split; [lia|].
  exists (Goto 0 "http://localhost:3000/login"), NavigationFailure.
  split; reflexivity.
Defined.

(** ** C8: failures are not handled *)

(** C8.  When a call raises, the process ends with that very exception
    and exit status 1; everything logged before the call had returned; after
    it nothing but the scope exit happens; and no call is made twice. *)
Theorem failures_reach_the_top_level (E : env) (disk : gmap string image)
    (c : call) (e : exn) :
  first_failure (history E disk) = Some (c, e) →
  outcome E disk = Raise e ∧
  exit_status (outcome E disk) = 1 ∧
  NoDup (ev_call <$> history E disk) ∧
  ∃ before after : list event,
    history E disk = before ++ Event c (Some e) :: after ∧
    Forall (λ ev, ev_error ev = None) before ∧
    (after = [] ∨ after = [returned Stop]).
Proof.
  by_run E disk; cbn; intros Hfirst; simplify_eq/=;
    (split; [done|]); (split; [done|]);
    (split; [by apply (bool_decide_unpack _); vm_compute|]);
    match goal with
    | |- ∃ before after, ?t = _ ∧ _ =>
        let n := eval vm_compute in (length t - 2)%nat in
        first [ exists [], [] ; split; [reflexivity|]
              | exists (take n t), [returned Stop]; split; [reflexivity|] ]
    end;
    (split; [repeat constructor | auto]).
Qed.

Lemma failures_reach_the_top_level_witness :
  outcome offline ∅ = Raise NavigationFailure ∧
  exit_status (outcome offline ∅) = 1 ∧
  NoDup (ev_call <$> history offline ∅) ∧
  ∃ before after : list event,
    history offline ∅
    = before ++ Event (Goto 0 "http://localhost:3000/login") (Some NavigationFailure)
             :: after ∧
    Forall (λ ev, ev_error ev = None) before ∧
    (after = [] ∨ after = [returned Stop]).
Proof. apply (failures_reach_the_top_level offline ∅). reflexivity. Defined.

(** Conversely an exception at the top level always comes from a call that
    raised, and a run without such a call returns with status 0. *)
Lemma no_failure_no_exception (E : env) (disk : gmap string image) :
  (first_failure (history E disk) = None ↔ outcome E disk = Ok tt) ∧
  (outcome E disk = Ok tt ↔ exit_status (outcome E disk) = 0).
Proof. by_run E disk; cbn; done. Qed.

(** ** C3: what the capture writes, and where *)

(** At any state, a capture that succeeds replaces the file at its path
    and touches no other file. *)
Lemma screenshot_overwrites (E : env) (page : handle) (path : string)
    (full_page : option bool) (s : state) (ps : page_state) :
  pages s !! page = Some ps → p_open ps = true → e_writable E path = true →
  files (snd (screenshot E page path full_page s))
  = <[path := Image (p_location ps) (default default_full_page full_page)]> (files s).
Proof.
  intros Hpage Hopen Hwrite.
  unfold screenshot, api, live_page.
  cbv [mbind M_bind mret M_ret get modify raise].
  rewrite Hpage, Hopen, Hwrite. reflexivity.
Qed.

(** The capture is not a full-page one: on the healthy application the run
    succeeds and the artifact it writes is a viewport capture. *)
Lemma capture_is_not_full_page :
  ¬ (∀ (E : env) (disk : gmap string image),
       outcome E disk = Ok tt →
       ∃ img, files (final E disk) !! artifact_path = Some img ∧
              img_full_page img = true).
Proof.
  intros Hfull.
  destruct (Hfull healthy ∅ eq_refl) as (img & Hfile & Himg).
  vm_compute in Hfile. by simplify_eq.
Qed.

(** C3, amended.  The capture step is one [screenshot] call with the
    fixed path and no [full_page] option, so the library's default extent
    applies, which is the viewport.  On a successful run the file at the
    fixed path is replaced by that capture, whatever an earlier run left
    there, and no other file changes. *)
Theorem capture_replaces_the_artifact (E : env) (disk : gmap string image) :
  outcome E disk = Ok tt →
  returned (Screenshot 0 artifact_path None) ∈ history E disk ∧
  (∀ ev, ev ∈ history E disk → step_of (ev_call ev) = 7%nat →
         ev = returned (Screenshot 0 artifact_path None)) ∧
  files (final E disk)
  = <[artifact_path := Image (Some dashboard_url) default_full_page]> disk ∧
  files (final E disk) !! artifact_path = Some (Image (Some dashboard_url) false) ∧
  (∀ path, path ≠ artifact_path → files (final E disk) !! path = disk !! path).
Proof.
  by_run E disk; cbn; intros Hok; simplify_eq.
  split; [in_log|].
  split; [each_event done|].
  split; [reflexivity|].
  split; [apply lookup_insert_eq|].
  intros path Hpath. by apply lookup_insert_ne.
Qed.

Lemma capture_replaces_the_artifact_witness :
  returned (Screenshot 0 artifact_path None) ∈ history healthy stale_disk ∧
  (∀ ev, ev ∈ history healthy stale_disk → step_of (ev_call ev) = 7%nat →
         ev = returned (Screenshot 0 artifact_path None)) ∧
  files (final healthy stale_disk)
  = <[artifact_path := Image (Some dashboard_url) default_full_page]> stale_disk ∧
  files (final healthy stale_disk) !! artifact_path
  = Some (Image (Some dashboard_url) false) ∧
  (∀ path, path ≠ artifact_path →
           files (final healthy stale_disk) !! path = stale_disk !! path).
Proof. apply (capture_replaces_the_artifact healthy stale_disk). reflexivity. Defined.

(** ** C4: no artifact unless both waits returned *)

(** Not every failure path stops short of the capture step: when the
    artifact cannot be written, the run raises in the capture call
    itself, which is in the log. *)
Lemma capture_reached_on_a_failure_path :
  ¬ (∀ (E : env) (disk : gmap string image) (e : exn),
       outcome E disk = Raise e →
       ∀ ev, ev ∈ history E disk → step_of (ev_call ev) ≠ 7%nat).
Proof.
  intros Hbefore.
  apply (Hbefore read_only ∅ ArtifactWriteFailure eq_refl
           (Event (Screenshot 0 artifact_path None) (Some ArtifactWriteFailure)));
    [in_log | reflexivity].
Qed.

(** C4, amended.  A capture is only ever attempted after the wait for the
    dashboard URL and the wait for a gallery card have both returned, in
    that order, and a run that raises leaves the disk as it found it and
    has no capture that returned.  When the call that raised comes before
    the capture step, the capture is not even attempted.  When the capture
    step itself fails, it is the screenshot call that raised, because the
    artifact cannot be written, and it has written nothing. *)
Theorem artifact_only_after_both_waits (E : env) (disk : gmap string image) :
  (∀ (i : nat) (ev : event),
     history E disk !! i = Some ev → step_of (ev_call ev) = 7%nat →
     ∃ j k : nat,
       (j < k < i)%nat ∧
       history E disk !! j = Some (returned (WaitForUrl 0 dashboard_url None)) ∧
       history E disk !! k = Some (returned (WaitForSelector 0 ".card" (Some 10000)))) ∧
  (∀ e : exn,
     outcome E disk = Raise e →
     files (final E disk) = disk ∧
     ∀ ev, ev ∈ history E disk → step_of (ev_call ev) = 7%nat → ev_error ev ≠ None) ∧
  (∀ n : nat,
     failed_at_step E disk n → (n < 7)%nat →
     ∀ ev, ev ∈ history E disk → step_of (ev_call ev) ≠ 7%nat) ∧
  (failed_at_step E disk 7 →
   first_failure (history E disk)
   = Some (Screenshot 0 artifact_path None, ArtifactWriteFailure) ∧
   e_writable E artifact_path = false ∧
   files (final E disk) = disk).
Proof.
  unfold failed_at_step.
  by_run E disk; cbn; (split; [|split; [|split]]).
  all: try (intros i ev Hi Hstep; each_position Hi; try discriminate Hstep;
            exists 8%nat, 9%nat; (split; [lia|]); split; reflexivity).
  all: try (intros e He; simplify_eq; (split; [reflexivity|]); each_event done).
  all: try (intros n (c & e & Hfirst & Hstep) Hlt; simplify_eq/=;
            first [lia | each_event done]).
  all: intros (c & e & Hfirst & Hstep); simplify_eq/=.
  repeat split; assumption.
Qed.

Lemma artifact_only_after_both_waits_witness :
  (outcome no_cards stale_disk = Raise WaitTimeout ∧
   failed_at_step no_cards stale_disk 6 ∧
   files (final no_cards stale_disk) = stale_disk ∧
   ∀ ev, ev ∈ history no_cards stale_disk → step_of (ev_call ev) ≠ 7%nat) ∧
  (failed_at_step read_only stale_disk 7 ∧
   first_failure (history read_only stale_disk)
   = Some (Screenshot 0 artifact_path None, ArtifactWriteFailure) ∧
   files (final read_only stale_disk) = stale_disk).
Proof.
  pose proof (artifact_only_after_both_waits no_cards stale_disk)
    as (_ & Hfail & Hbefore & _).
  pose proof (artifact_only_after_both_waits read_only stale_disk)
    as (_ & _ & _ & Hcapture).
  assert (Hsix : failed_at_step no_cards stale_disk 6).
  { exists (WaitForSelector 0 ".card" (Some 10000)), WaitTimeout. split; reflexivity. }
  assert (Hseven : failed_at_step read_only stale_disk 7).
  { exists (Screenshot 0 artifact_path None), ArtifactWriteFailure. split; reflexivity. }
  split.
  - split; [reflexivity|]. split; [exact Hsix|].
    split; [exact (proj1 (Hfail WaitTimeout eq_refl))|].
    apply (Hbefore 6%nat Hsix). lia.
  - split; [exact Hseven|].
    destruct (Hcapture Hseven) as (Hfirst & _ & Hdisk). by split.
Defined.

(** Rewrites the goal with what is known about the environment. *)
Ltac use_env :=
  repeat match goal with
         | H : ?x = _ |- context [?x] => rewrite H
         end.

(** ** C5: how the login form is driven *)

(** C5.  Once the login page is loaded, the run fills the element labelled
    "Email" with photographer@yarrow.com, then the element labelled
    "Password" with yarrow, then clicks the element of role "button" named
    "Login"; elements are only ever looked up by these three queries; and
    when one of the three elements is missing the run ends with the
    not-found exception raised by that lookup. *)
Theorem login_form_by_label_and_role (E : env) (disk : gmap string image) :
  e_driver_ok E = true → e_launch_ok E = true → e_reachable E login_url = true →
  history E disk !! 5%nat = Some (Event fill_email (lookup_result (has_email E))) ∧
  (has_email E = true →
   history E disk !! 6%nat
   = Some (Event fill_password (lookup_result (has_password E)))) ∧
  (has_email E = true → has_password E = true →
   history E disk !! 7%nat
   = Some (Event click_login (lookup_result (has_login_button E)))) ∧
  (∀ ev, ev ∈ history E disk →
         (step_of (ev_call ev) = 3%nat ∨ step_of (ev_call ev) = 4%nat) →
         ev_call ev ∈ [fill_email; fill_password; click_login]) ∧
  (has_email E && has_password E && has_login_button E = false →
   outcome E disk = Raise ElementNotFound ∧
   (failed_at_step E disk 3 ∨ failed_at_step E disk 4)).
Proof.
  unfold has_email, has_password, has_login_button, failed_at_step.
  by_run E disk; intros Hd Hl Hr; try congruence; use_env; cbn;
    (split; [reflexivity|]);
    (split; [intros; try reflexivity; congruence|]);
    (split; [intros; try reflexivity; congruence|]);
    (split; [each_event ltac:(intros [?|?]; first [discriminate | set_solver])|]);
    intros Hmissing; try discriminate;
    (split; [reflexivity|]).
  - left. by eexists _, _.
  - left. by eexists _, _.
  - right. by eexists _, _.
Qed.

Lemma login_form_by_label_and_role_witness :
  history healthy ∅ !! 5%nat = Some (returned fill_email) ∧
  history healthy ∅ !! 6%nat = Some (returned fill_password) ∧
  history healthy ∅ !! 7%nat = Some (returned click_login).
Proof.
  pose proof (login_form_by_label_and_role healthy ∅ eq_refl eq_refl eq_refl)
    as (Hemail & Hpassword & Hlogin & _).
  split; [exact Hemail|].
  split; [exact (Hpassword eq_refl) | exact (Hlogin eq_refl eq_refl)].
Defined.

(** ** C6: the wait for a gallery card *)

(** At any state, a wait for a selector blocks for at most its timeout. *)
Lemma wait_for_selector_blocks_at_most (E : env) (page : handle) (css : string)
    (timeout : option Z) (s : state) :
  elapsed (snd (wait_for_selector E page css timeout s))
  ≤ elapsed s + Z.max 0 (effective_timeout timeout).
Proof.
  unfold wait_for_selector, api, live_page.
  cbv [mbind M_bind mret M_ret get modify raise].
  destruct (pages s !! page) as [ps|]; [destruct (p_open ps)|]; cbn; try lia.
  destruct (first_match E ps css) as [ms|]; cbn; [|lia].
  destruct (Z.leb_spec ms (effective_timeout timeout)); cbn; lia.
Qed.

(** It returns exactly when a first match shows up within the timeout,
    and otherwise raises a timeout. *)
Lemma wait_for_selector_outcome (E : env) (page : handle) (css : string)
    (timeout : option Z) (s : state) (ps : page_state) :
  pages s !! page = Some ps → p_open ps = true →
  fst (wait_for_selector E page css timeout s)
  = match first_match E ps css with
    | Some ms => if ms <=? effective_timeout timeout then Ok tt else Raise WaitTimeout
    | None => Raise WaitTimeout
    end.
Proof.
  intros Hpage Hopen.
  unfold wait_for_selector, api, live_page.
  cbv [mbind M_bind mret M_ret get modify raise].
  rewrite Hpage, Hopen.
  destruct (first_match E ps css) as [ms|]; [|reflexivity].
  destruct (ms <=? effective_timeout timeout); reflexivity.
Qed.

(** C6.  The content wait is the call [wait_for_selector(".card",
    timeout=10000)]: its bound is 10000 ms and it never blocks longer.  Once
    the dashboard is reached, it returns when a first element matching
    [.card] shows up within that bound; otherwise the run ends with a
    timeout raised by this call, no capture is attempted and the disk is
    left as it was. *)
Theorem content_wait_ten_seconds (E : env) (disk : gmap string image) :
  (∀ ev, ev ∈ history E disk → step_of (ev_call ev) = 6%nat →
         ev_call ev = wait_for_card) ∧
  effective_timeout (Some 10000) = 10000 ∧
  (∀ s, elapsed (snd (wait_for_selector E 0 ".card" (Some 10000) s))
        ≤ elapsed s + 10000) ∧
  (returned wait_for_dashboard ∈ history E disk →
   if card_in_time E
   then returned wait_for_card ∈ history E disk
   else outcome E disk = Raise WaitTimeout ∧
        first_failure (history E disk) = Some (wait_for_card, WaitTimeout) ∧
        files (final E disk) = disk ∧
        ∀ ev, ev ∈ history E disk → step_of (ev_call ev) ≠ 7%nat).
Proof.
  split; [|split; [reflexivity|split]].
  - by_run E disk; cbn; each_event done.
  - intros s. apply (wait_for_selector_blocks_at_most E 0 ".card" (Some 10000) s).
  - unfold card_in_time.
    by_run E disk; cbn; intros Hreached; use_env;
      try (not_in_log Hreached).
    + repeat split. each_event done.
    + destruct (Z.leb_spec t 10000); [lia|].
      repeat split. each_event done.
    + destruct (Z.leb_spec t 10000); [|lia]. in_log.
    + destruct (Z.leb_spec t 10000); [|lia]. in_log.
Qed.

Lemma content_wait_ten_seconds_witness :
  outcome no_cards ∅ = Raise WaitTimeout ∧
  first_failure (history no_cards ∅) = Some (wait_for_card, WaitTimeout) ∧
  files (final no_cards ∅) = ∅ ∧
  ∀ ev, ev ∈ history no_cards ∅ → step_of (ev_call ev) ≠ 7%nat.
Proof.
  pose proof (content_wait_ten_seconds no_cards ∅) as (_ & _ & _ & Hwait).
  apply Hwait. in_log.
Defined.

(** ** C7: the wait for the dashboard *)

(** At any state, a wait for a URL on a page that is somewhere else returns
    exactly when the navigation in flight leads to that very URL within the
    timeout. *)
Lemma wait_for_url_outcome (page : handle) (url : string)
    (timeout : option Z) (s : state) (ps : page_state) :
  pages s !! page = Some ps → p_open ps = true → p_location ps ≠ Some url →
  fst (wait_for_url page url timeout s) = Ok tt
  ↔ ∃ ms, p_pending ps = Some (url, ms) ∧ ms ≤ effective_timeout timeout.
Proof.
  intros Hpage Hopen Helsewhere.
  assert (Hat : at_url ps url = false).
  { unfold at_url. destruct (p_location ps) as [u|]; [|done].
    destruct (String.eqb_spec u url); congruence. }
  unfold wait_for_url, api, live_page.
  cbv [mbind M_bind mret M_ret get modify raise].
  rewrite Hpage, Hopen, Hat.
  destruct (p_pending ps) as [[target ms]|]; cbn.
  - destruct (String.eqb_spec target url) as [->|Hne];
      destruct (Z.leb_spec ms (effective_timeout timeout)) as [Hle|Hgt]; cbn.
    + split; [eauto|done].
    + split; [done|]. intros (ms' & [= <-] & Hle). lia.
    + split; [done|]. intros (ms' & [= Heq _] & _). done.
    + split; [done|]. intros (ms' & [= Heq _] & _). done.
  - split; [done|]. intros (ms' & Hnone & _). done.
Qed.

(** C7.  The navigation wait is the call
    [wait_for_url("http://localhost:3000/dashboard")] with no timeout
    argument, so the library's default bound applies.  After the login
    button was clicked it returns exactly when the application navigates
    to that very URL within the default bound; otherwise the run ends with a
    timeout. *)
Theorem navigation_wait_exact_url (E : env) (disk : gmap string image) :
  (∀ ev, ev ∈ history E disk → step_of (ev_call ev) = 5%nat →
         ev_call ev = WaitForUrl 0 "http://localhost:3000/dashboard" None) ∧
  effective_timeout None = default_timeout ∧
  (returned click_login ∈ history E disk →
   (returned wait_for_dashboard ∈ history E disk
    ↔ ∃ ms, submitted E = Some (dashboard_url, ms) ∧ ms ≤ default_timeout) ∧
   (returned wait_for_dashboard ∉ history E disk →
    outcome E disk = Raise WaitTimeout ∧
    first_failure (history E disk) = Some (wait_for_dashboard, WaitTimeout))).
Proof.
  split; [|split; [reflexivity|]].
  - by_run E disk; cbn; each_event done.
  - unfold default_timeout.
    by_run E disk; cbn; intros Hclicked; use_env;
      try (not_in_log Hclicked);
      (split; [split|]).
    all: try (intros Hin; not_in_log Hin).
    all: try (intros (ms' & Hsub & Hle); simplify_eq; done || lia).
    all: try (intros _; eexists; split; [reflexivity|assumption]).
    all: try (intros _; in_log).
    all: try (intros _; split; reflexivity).
    all: intros Hnot; exfalso; apply Hnot; in_log.
Qed.

Lemma navigation_wait_exact_url_witness :
  returned wait_for_dashboard ∈ history healthy ∅ ∧
  outcome detour ∅ = Raise WaitTimeout.
Proof.
  pose proof (navigation_wait_exact_url healthy ∅) as (_ & _ & Hgood).
  pose proof (navigation_wait_exact_url detour ∅) as (_ & _ & Hbad).
  split.
  - apply Hgood.
    + in_log.
    + exists 400. split; [reflexivity|]. by vm_compute.
  - apply Hbad.
    + in_log.
    + intros Hin. not_in_log Hin.
Defined.

(** ** C9: one page, inside the session *)

(** C9.  A run creates at most one page and every page operation is on
    that page.  Each call that creates or uses the page comes after the
    browser was launched and its context created, and before every release
    call ([browser.close()] and the scope exit), of which there is one. *)
Theorem one_page_within_the_session (E : env) (disk : gmap string image) :
  (length (pages (final E disk)) ≤ 1)%nat ∧
  (length (List.filter (λ ev, creates_page (ev_call ev)) (history E disk)) ≤ 1)%nat ∧
  (∀ ev, ev ∈ history E disk →
         ∀ p, page_of (ev_call ev) = Some p → p = 0%nat) ∧
  (∀ (j : nat) (ev : event),
     history E disk !! j = Some ev → touches_page (ev_call ev) = true →
     (∃ i i' : nat,
        (i < i' < j)%nat ∧
        history E disk !! i = Some (returned (Launch Chromium (Some true))) ∧
        history E disk !! i' = Some (returned (NewContext 0))) ∧
     (∃ k : nat, (j < k)%nat ∧ history E disk !! k = Some (returned Stop)) ∧
     (∀ (k : nat) (ev' : event),
        history E disk !! k = Some ev' → step_of (ev_call ev') = 8%nat →
        (j < k)%nat)).
Proof.
  by_run E disk; cbn;
    (split; [lia|]); (split; [lia|]);
    (split; [each_event ltac:(intros p [= <-]; reflexivity)|]);
    intros j ev Hj Htouch; each_position Hj; try discriminate Htouch;
    (split; [exists 1%nat, 2%nat; (split; [lia|]); split; reflexivity|]);
    (split;
     [ match goal with
       | |- ∃ k, _ ∧ ?t !! _ = _ =>
           let n := eval vm_compute in (length t - 1)%nat in
           exists n; split; [lia|reflexivity]
       end
     | intros k ev' Hk Hrelease; each_position Hk;
       first [discriminate Hrelease | lia] ]).
Qed.

(** ** C10: where the run starts *)

(** C10.  The only navigation the script asks for is to
    [http://localhost:3000/login], the [/login] path under the base URL and
    not the base URL itself; once the session is acquired it is the first
    thing done with the page. *)
Theorem first_navigation_is_the_login_page (E : env) (disk : gmap string image) :
  login_url = base_url +:+ "/login" ∧
  login_url ≠ base_url ∧
  (∀ ev, ev ∈ history E disk → step_of (ev_call ev) = 2%nat →
         ev_call ev = Goto 0 login_url) ∧
  (e_driver_ok E = true → e_launch_ok E = true →
   (∃ o, history E disk !! 4%nat = Some (Event (Goto 0 login_url) o)) ∧
   ∀ (j : nat) (ev : event),
     history E disk !! j = Some ev → is_Some (page_of (ev_call ev)) → (4 ≤ j)%nat).
Proof.
  split; [reflexivity|]. split; [done|].
  by_run E disk; cbn; (split; [each_event done|]);
    intros Hd Hl; try congruence;
    (split; [eexists; reflexivity|]);
    intros j ev Hj [p Hp]; each_position Hj; first [discriminate Hp | lia].
Qed.

Lemma first_navigation_is_the_login_page_witness :
  (∃ o, history offline ∅ !! 4%nat = Some (Event (Goto 0 login_url) o)) ∧
  ∀ (j : nat) (ev : event),
    history offline ∅ !! j = Some ev → is_Some (page_of (ev_call ev)) → (4 ≤ j)%nat.
Proof.
  pose proof (first_navigation_is_the_login_page offline ∅) as (_ & _ & _ & Hfirst).
  exact (Hfirst eq_refl eq_refl).
Defined.

(** ** Further properties of the script *)

(** The disk after a run: the artifact replaced when the run returned, and
    otherwise the disk as it was. *)
Lemma files_after_run (E : env) (disk : gmap string image) :
  files (final E disk)
  = match outcome E disk with
    | Ok _ => <[artifact_path := Image (Some dashboard_url) false]> disk
    | Raise _ => disk
    end.
Proof. by_run E disk; reflexivity. Qed.

(** A run is determined by its case. *)
Lemma run_of_functional (E : env) (disk : gmap string image)
    (r r' : result unit) (s s' : state) :
  run_of E disk r s → run_of E disk r' s' → r = r' ∧ s = s'.
Proof.
  intros Hrun Hrun'.
  destruct Hrun; destruct Hrun'; try (split; reflexivity);
    try congruence; simplify_eq; try lia; try (split; reflexivity).
Qed.


(** Splits on the comparisons left in the goal. *)
Ltac split_tests :=
  repeat match goal with
         | |- context [String.eqb ?a ?b] => destruct (String.eqb_spec a b)
         | |- context [?a <=? ?b] => destruct (Z.leb_spec a b)
         end.

(** X1.  The run returns exactly when the driver and the browser start,
    the login page loads, the Email field, the Password field and the Login
    button are there, submitting leads to the dashboard URL within the
    default bound, a gallery card shows up within ten seconds and the
    artifact can be written.  The disk plays no part. *)
Theorem run_returns_iff_passes (E : env) (disk : gmap string image) :
  outcome E disk = Ok tt ↔ passes E = true.
Proof.
  unfold passes, navigates_in_time, card_in_time, has_email, has_password,
    has_login_button, default_timeout.
  by_run E disk; use_env; cbn; split_tests; cbn; split; intros; try done; lia.
Qed.

(** A run transfers to any environment with the same nine answers. *)
Lemma run_of_same_answers (E E' : env) (disk : gmap string image)
    (r : result unit) (s : state) :
  same_answers E E' → run_of E disk r s → run_of E' disk r s.
Proof.
  unfold same_answers, has_email, has_password, has_login_button.
  intros (Hd & Hl & Hr & He & Hp & Hb & Hs & Hc & Hw) Hrun.
  destruct Hrun;
    [ eapply no_driver | eapply no_browser | eapply no_site | eapply no_email
    | eapply no_password | eapply no_button | eapply no_navigation
    | eapply other_page | eapply slow_navigation | eapply no_card
    | eapply late_card | eapply no_write | eapply all_good ];
    eauto; congruence.
Qed.

(** X2.  The run depends on the outside world through nine answers only:
    whether the driver and the browser start, whether the login URL loads,
    whether the login page has the Email field, the Password field and the
    Login button, where submitting the two credentials leads, when a
    [.card] element shows up on the dashboard, and whether the artifact
    path can be written.  Two environments that agree on these give the
    same outcome and the same final state, log included. *)
Theorem run_reads_nine_answers (E E' : env) (disk : gmap string image) :
  same_answers E E' →
  outcome E disk = outcome E' disk ∧ final E disk = final E' disk.
Proof.
  intros Hsame.
  apply (run_of_functional E' disk).
  - apply (run_of_same_answers E E'); [exact Hsame|]. apply run_cases_exhaustive.
  - apply run_cases_exhaustive.
Qed.

Lemma run_reads_nine_answers_witness :
  outcome healthy stale_disk = outcome healthy_elsewhere_broken stale_disk ∧
  final healthy stale_disk = final healthy_elsewhere_broken stale_disk.
Proof.
  apply (run_reads_nine_answers healthy healthy_elsewhere_broken stale_disk).
  repeat split.
Defined.

(** X3.  The run never reads the disk: its outcome, its log, the time it
    waits and the browser objects it leaves are the same whatever files
    were there before. *)
Theorem run_ignores_the_disk (E : env) (disk disk' : gmap string image) :
  outcome E disk = outcome E disk' ∧
  history E disk = history E disk' ∧
  elapsed (final E disk) = elapsed (final E disk') ∧
  pages (final E disk) = pages (final E disk').
Proof.
  by_run E disk; by_run E disk'; cbn;
    try congruence; simplify_eq; try lia; done.
Qed.

(** X4.  Two runs in a row, possibly against different environments: when
    the second run returns, the disk is what that run alone would have
    left, so the artifact is the second run's and nothing accumulates; when
    the second run raises, the disk is as the first run left it, stale
    artifact included. *)
Theorem later_run_wins_or_leaves_disk (E1 E2 : env) (disk : gmap string image) :
  files (final E2 (files (final E1 disk)))
  = match outcome E2 disk with
    | Ok _ => files (final E2 disk)
    | Raise _ => files (final E1 disk)
    end.
Proof.
  rewrite (files_after_run E2 (files (final E1 disk))).
  destruct (run_ignores_the_disk E2 (files (final E1 disk)) disk) as (-> & _).
  rewrite (files_after_run E2 disk).
  destruct (outcome E2 disk); [|reflexivity].
  rewrite (files_after_run E1 disk).
  destruct (outcome E1 disk); [apply insert_insert_eq | reflexivity].
Qed.



(** ** [run] called in an arbitrary state *)

Lemma lookup_last {A} (l : list A) (x : A) : (l ++ [x]) !! length l = Some x.
Proof. by apply list_lookup_middle. Qed.

Lemma insert_last {A} (l : list A) (x y : A) :
  <[length l := y]> (l ++ [x]) = l ++ [y].
Proof. rewrite insert_app_r_alt by lia. by rewrite Nat.sub_diag. Qed.

(** The handles [run] gets are the next free ones. *)
Ltac fresh_handles := repeat (rewrite ?lookup_last, ?insert_last; cbn).

(** As [run_cases], for [run] alone and from a state with symbolic tables. *)
Ltac run_anywhere_cases E :=
  exec;
  match goal with |- context [if ?d && _ then _ else _] => destruct d; cbn end;
  on_goal (e_launch_ok E) ltac:(
    destruct (e_launch_ok E) eqn:Hlaunch; cbn; fresh_handles);
  on_goal (e_reachable E) ltac:(
    destruct (e_reachable E "http://localhost:3000/login") eqn:Hreach;
    cbn; fresh_handles);
  on_goal (e_has E) ltac:(
    destruct (e_has E "http://localhost:3000/login" (Label "Email")) eqn:Hemail;
    cbn; fresh_handles);
  on_goal (e_has E) ltac:(
    destruct (e_has E "http://localhost:3000/login" (Label "Password")) eqn:Hpassword;
    cbn; fresh_handles);
  on_goal (e_has E) ltac:(
    destruct (e_has E "http://localhost:3000/login" (Role "button" (Some "Login")))
      eqn:Hlogin; cbn; fresh_handles);
  on_goal (e_activate E) ltac:(
    destruct (e_activate E "http://localhost:3000/login" (Role "button" (Some "Login"))
                [(Label "Password", "yarrow"); (Label "Email", "photographer@yarrow.com")])
      as [[target ms]|] eqn:Hsubmit; cbn; fresh_handles);
  try match goal with
      | |- context [String.eqb ?x "http://localhost:3000/dashboard"] =>
          destruct (String.eqb_spec x "http://localhost:3000/dashboard")
            as [Htarget|Htarget]; [subst x|]; cbn; fresh_handles
      end;
  try match goal with
      | |- context [?m <=? 30000] =>
          destruct (Z.leb_spec m 30000) as [Hms|Hms]; cbn; fresh_handles
      end;
  on_goal (e_appears E) ltac:(
    destruct (e_appears E "http://localhost:3000/dashboard" ".card") as [t|] eqn:Hcard;
    cbn; fresh_handles);
  try match goal with
      | |- context [?m <=? 10000] =>
          destruct (Z.leb_spec m 10000) as [Ht|Ht]; cbn; fresh_handles
      end;
  on_goal (e_writable E) ltac:(
    destruct (e_writable E "jules-scratch/verification/verification.png") eqn:Hwrite;
    cbn; fresh_handles).

(** Everything [run] does to a state, whatever the state. *)
Lemma run_anywhere (E : env) (s : state) (r : result unit) (s' : state) :
  run E Playwright s = (r, s') →
  (∃ evs : list event,
     trace s' = trace s ++ evs ∧
     (ev_call <$> evs)
       `prefix_of` script_on (length (browsers s)) (length (contexts s))
                             (length (pages s)) ∧
     Forall (λ ev, ev_error ev = None) (removelast evs) ∧
     last evs ≫= ev_error = error_of r ∧
     (r = Ok tt ↔
      evs = returned <$> script_on (length (browsers s)) (length (contexts s))
                                   (length (pages s)))) ∧
  driver s' = driver s ∧
  (∀ i b, browsers s !! i = Some b → browsers s' !! i = Some b) ∧
  (∀ i c, contexts s !! i = Some c → c_browser c ≠ length (browsers s) →
          contexts s' !! i = Some c) ∧
  (∀ i p, pages s !! i = Some p →
          ∃ p', pages s' !! i = Some p' ∧ same_document p p') ∧
  (∀ i p, pages s !! i = Some p → r ≠ Ok tt → pages s' !! i = Some p) ∧
  (∀ path, path ≠ artifact_path → files s' !! path = files s !! path) ∧
  (driver s = true → e_launch_ok E = true →
   browsers s' !! length (browsers s)
   = Some (Browser Chromium true (if r is Ok _ then false else true))).
Proof.
  destruct s as [d bs cs ps fs el tr].
  run_anywhere_cases E.
  all: intros [= <- <-]; cbn.
  all: rewrite <- ?app_assoc; cbn.
  all: split;
    [ eexists; split; [reflexivity|];
      split; [eexists; reflexivity|];
      split; [cbn; repeat constructor|];
      split; [reflexivity|];
      split; intros; done |].
  all: split; [reflexivity|].
  all: split; [intros i b Hb; first [exact Hb | by apply lookup_app_l_Some]|].
  all: split;
    [ intros i c Hc Hne; rewrite ?list_lookup_fmap;
      first [ exact Hc
            | rewrite (lookup_app_l_Some _ _ _ _ Hc); cbn;
              try (destruct (Nat.eqb_spec (c_browser c) (length bs)); [done|]);
              reflexivity ] |].
  all: split;
    [ intros i p Hp; rewrite ?list_lookup_fmap;
      first [ exists p; split; [exact Hp|done]
            | rewrite (lookup_app_l_Some _ _ _ _ Hp); cbn;
              eexists; split; [reflexivity|];
              try match goal with
                  | |- context [if ?b then _ else _] => destruct b
                  end; done ] |].
  all: split;
    [ intros i p Hp Hr; first [done | exact Hp | by apply lookup_app_l_Some] |].
  all: split;
    [ intros path Hpath; first [reflexivity | by apply lookup_insert_ne] |].
  all: intros Hd Hl; first [discriminate | apply lookup_last].
Qed.

(** X8.  In whatever state [run] is called, it works on the browser, the
    context and the page it has just created: the calls it adds to the log
    are a prefix of its eleven calls on the next free browser, context and
    page handles, each made after the one before returned, and all eleven
    exactly when it returns. *)
Theorem run_uses_the_handles_it_created (E : env) (s : state) :
  ∃ evs : list event,
    trace (snd (run E Playwright s)) = trace s ++ evs ∧
    (ev_call <$> evs)
      `prefix_of` script_on (length (browsers s)) (length (contexts s))
                            (length (pages s)) ∧
    Forall (λ ev, ev_error ev = None) (removelast evs) ∧
    last evs ≫= ev_error = error_of (fst (run E Playwright s)) ∧
    (fst (run E Playwright s) = Ok tt ↔
     evs = returned <$> script_on (length (browsers s)) (length (contexts s))
                                  (length (pages s))).
Proof.
  destruct (run E Playwright s) as [r s'] eqn:Hrun; cbn [fst snd].
  exact (proj1 (run_anywhere E s r s' Hrun)).
Qed.

(** X9.  [run] leaves alone what it did not create: the driver keeps
    running or not as before, browsers that were there are unchanged,
    contexts of those browsers are unchanged, pages that were there keep
    their document, typed values and pending navigation (and are unchanged
    altogether when [run] raises), and no file but the artifact changes. *)
Theorem run_leaves_the_rest_alone (E : env) (s : state) :
  driver (snd (run E Playwright s)) = driver s ∧
  (∀ i b, browsers s !! i = Some b →
          browsers (snd (run E Playwright s)) !! i = Some b) ∧
  (∀ i c, contexts s !! i = Some c → c_browser c ≠ length (browsers s) →
          contexts (snd (run E Playwright s)) !! i = Some c) ∧
  (∀ i p, pages s !! i = Some p →
          ∃ p', pages (snd (run E Playwright s)) !! i = Some p' ∧
                same_document p p') ∧
  (∀ i p, pages s !! i = Some p → fst (run E Playwright s) ≠ Ok tt →
          pages (snd (run E Playwright s)) !! i = Some p) ∧
  (∀ path, path ≠ artifact_path →
           files (snd (run E Playwright s)) !! path = files s !! path).
Proof.
  destruct (run E Playwright s) as [r s'] eqn:Hrun; cbn [fst snd].
  destruct (run_anywhere E s r s' Hrun)
    as (_ & Hdriver & Hbrowsers & Hcontexts & Hpages & Hfailed & Hfiles & _).
  repeat split; assumption.
Qed.

(** X10.  [run] closes the browser it launched only by its last
    statement: when [run] returns that browser is closed, and when [run]
    raises after the launch the browser is still open as [run] hands the
    exception to its caller. *)
Theorem run_closes_its_browser_only_on_return (E : env) (s : state) :
  driver s = true → e_launch_ok E = true →
  browsers (snd (run E Playwright s)) !! length (browsers s)
  = Some (Browser Chromium true
            (if fst (run E Playwright s) is Ok _ then false else true)).
Proof.
  destruct (run E Playwright s) as [r s'] eqn:Hrun; cbn [fst snd].
  exact (proj2 (proj2 (proj2 (proj2 (proj2 (proj2 (proj2
           (run_anywhere E s r s' Hrun)))))))).
Qed.

Lemma run_closes_its_browser_only_on_return_witness :
  fst (run offline Playwright busy) = Raise NavigationFailure ∧
  browsers (snd (run offline Playwright busy)) !! 1%nat
  = Some (Browser Chromium true true).
Proof.
  split; [reflexivity|].
  exact (run_closes_its_browser_only_on_return offline busy eq_refl eq_refl).
Defined.

